(** * The module invoker scripts [run_wasm.js] and its unnamed variant

    The repository holds two Node.js scripts that read a WebAssembly
    module, look up an exported function under a few fixed names, call it
    with integers parsed from the command line and print the result.

    The scripts are embedded line by line.  Names bound by a [const] of
    the script are Rocq binders; every other identifier is resolved in the
    scope Node gives a CommonJS module, and an identifier that scope does
    not define throws a [ReferenceError], as in JavaScript.  Effects are
    threaded through a small monad that records the observable events of a
    run (file reads, instantiations, calls of exports, lines on stdout)
    and carries a thrown error.

    Each script is given whole, as Node loads and runs it, and in parts:
    the lines from a given one on, as a function of the names bound above
    it.  What a script does from the command line is stated on the whole;
    what its steps do with an instance, an entry point or a list of
    tokens is stated on the parts. *)

From Stdlib Require Import ZArith String Ascii List.
From Stdlib Require Import Numbers.DecimalString Numbers.DecimalPos.
From stdpp Require Import gmap strings list.

Open Scope string_scope.

(** ** JavaScript values, errors and the effect monad *)

Module JS.

(** Numbers as far as these scripts produce them: the results of
    [parseInt] and the results of an export that have no fraction.  A
    Number is a double: [Num z] is the double whose value is the integer
    [z], which exists for every [z] up to 2^53 in magnitude and, beyond,
    for those [nearest_double] returns; [NegZero] is the value of
    [parseInt("-0", 10)].  Numbers with a fraction do not arise from
    [parseInt] and are not represented. *)
Inductive number :=
| NaN
| NegZero
| Num (z : Z)
| PosInfinity
| NegInfinity.

Inductive object :=
| OBuffer (contents : list Byte.byte)   (* what fs.readFileSync returns *)
| OHost (name : string).                (* process, console, WebAssembly, ... *)

Inductive value :=
| VUndefined
| VNumber (n : number)
| VBigInt (z : Z)
| VString (s : string)
| VObject (o : object).

Inductive error :=
| SyntaxError (msg : string)
| ReferenceError (ident : string)        (* "<ident> is not defined" *)
| TypeError (msg : string)
| Error_ (msg : string)                  (* new Error(msg) *)
| SystemError (path : string)            (* ENOENT, EACCES, ... from fs *)
| WasmError (msg : string).              (* CompileError, LinkError, RuntimeError *)

Inductive result (A : Type) :=
| Ok (a : A)
| Throw (e : error).
Arguments Ok {A} a.
Arguments Throw {A} e.

(** An export of an instance.  A function carries the index it has in
    the module, so that a call can be told from a call of another one,
    and its behaviour, a function of the arguments: exports are
    deterministic. Memories, tables and globals are objects too. *)
Inductive export :=
| ExFunc (idx : N) (call : list value -> result value)
| ExMemory
| ExTable
| ExGlobal.

Inductive event :=
| EvRead (path : string)
| EvInstantiate (bytes : value)
| EvCall (idx : N) (args : list value)
| EvStdout (line : string).

(** Events so far, and a value or the error that ended the run. *)
Definition M (A : Type) : Type := list event * result A.

Definition ret {A} (a : A) : M A := ([], Ok a).
Definition throw {A} (e : error) : M A := ([], Throw e).
Definition emit (ev : event) : M unit := ([ev], Ok tt).
Definition lift {A} (r : result A) : M A := ([], r).

Definition bind {A B} (m : M A) (k : A -> M B) : M B :=
  match m with
  | (t, Ok a) => let '(t', r) := k a in ((t ++ t')%list, r)
  | (t, Throw e) => (t, Throw e)
  end.

(** [l.map(f)] for an [f] with effects, from left to right. *)
Fixpoint mapM {A B} (f : A -> M B) (l : list A) : M (list B) :=
  match l with
  | x :: r =>
      bind (f x) (fun y => bind (mapM f r) (fun ys => ret (y :: ys)))
  | [] => ret []
  end.

Definition trace {A} (m : M A) : list event := fst m.
Definition outcome {A} (m : M A) : result A := snd m.

(** *** [parseInt(s, 10)] *)

(** A token is the bytes of a command-line argument, which Node reads as
    UTF-8.  WhiteSpace and LineTerminator code points of one byte: TAB,
    LF, VT, FF, CR, SP. *)
Definition is_white_space (c : ascii) : bool :=
  let n := nat_of_ascii c in
  ((n =? 9) || (n =? 10) || (n =? 11) || (n =? 12) || (n =? 13)
   || (n =? 32))%nat.

(** Of two bytes: U+00A0. *)
Definition is_white_space2 (a b : ascii) : bool :=
  ((nat_of_ascii a =? 194) && (nat_of_ascii b =? 160))%nat.

(** Of three bytes: U+1680, U+2000 to U+200A, U+2028, U+2029, U+202F,
    U+205F, U+3000 and U+FEFF. *)
Definition is_white_space3 (a b c : ascii) : bool :=
  let x := nat_of_ascii a in
  let y := nat_of_ascii b in
  let z := nat_of_ascii c in
  (((x =? 225) && (y =? 154) && (z =? 128))
   || ((x =? 226) && (y =? 128)
       && (((128 <=? z) && (z <=? 138)) || (z =? 168) || (z =? 169)
           || (z =? 175)))
   || ((x =? 226) && (y =? 129) && (z =? 159))
   || ((x =? 227) && (y =? 128) && (z =? 128))
   || ((x =? 239) && (y =? 187) && (z =? 191)))%nat.

Definition is_digit (c : ascii) : bool :=
  let n := nat_of_ascii c in ((48 <=? n) && (n <=? 57))%nat.

Definition digit_value (c : ascii) : Z := Z.of_nat (nat_of_ascii c) - 48.

Fixpoint trim_start (s : string) : string :=
  match s with
  | String a r1 =>
      if is_white_space a then trim_start r1
      else
        match r1 with
        | String b r2 =>
            if is_white_space2 a b then trim_start r2
            else
              match r2 with
              | String c r3 =>
                  if is_white_space3 a b c then trim_start r3 else s
              | EmptyString => s
              end
        | EmptyString => s
        end
  | EmptyString => EmptyString
  end.

(** Steps 3 and 4: the sign, and the string without it. *)
Definition strip_sign (s : string) : Z * string :=
  match s with
  | String "-" r => (-1, r)%Z
  | String "+" r => (1, r)%Z
  | _ => (1, s)%Z
  end.

(** The longest prefix of radix-10 digits. *)
Fixpoint digits_of (s : string) : list Z :=
  match s with
  | String c r => if is_digit c then digit_value c :: digits_of r else []
  | EmptyString => []
  end.

Definition math_int (ds : list Z) : Z :=
  fold_left (fun acc d => 10 * acc + d)%Z ds 0%Z.

(** The double nearest to the integer [a > 0], as the integer it is
    worth: below 2^53 every integer is a double; from there on 53 bits
    are kept and a tie goes to the even one.  The result can be 2^1024,
    which is no double any more. *)
Definition nearest_double (a : Z) : Z :=
  if (a <? 2 ^ 53)%Z then a
  else
    let e := (Z.log2 a - 52)%Z in
    let q := Z.shiftr a e in
    let r := (a - Z.shiftl q e)%Z in
    let half := Z.shiftl 1 (e - 1) in
    let q' :=
      if (r <? half)%Z then q
      else if (half <? r)%Z then (q + 1)%Z
      else if Z.even q then q else (q + 1)%Z in
    Z.shiftl q' e.

(** The Number for an integer. *)
Definition to_double (z : Z) : number :=
  let v := nearest_double (Z.abs z) in
  if (2 ^ 1024 <=? v)%Z
  then (if (z <? 0)%Z then NegInfinity else PosInfinity)
  else Num (Z.sgn z * v).

(** Steps 11 and 12: a zero keeps the sign, anything else is rounded. *)
Definition to_number (sign m : Z) : number :=
  if (m =? 0)%Z then (if (sign <? 0)%Z then NegZero else Num 0)
  else to_double (sign * m).

Definition parseInt10 (s : string) : number :=
  let '(sign, body) := strip_sign (trim_start s) in
  match digits_of body with
  | [] => NaN
  | ds => to_number sign (math_int ds)
  end.

(** *** [console.log] *)

Definition string_of_Z (z : Z) : string :=
  NilZero.string_of_int (Z.to_int z).

(** Number::toString for a double above 2^53, which is an integer: the
    decimal with the fewest significant digits that still reads back as
    this double, the nearest one if there are two. *)
Definition round_trips (a c : Z) : bool := (nearest_double c =? a)%Z.

(** Among the multiples of 10^j next to [a]. *)
Definition pick (a j : Z) : option Z :=
  let p := (10 ^ j)%Z in
  let lo := (a / p * p)%Z in
  let hi := (lo + p)%Z in
  match round_trips a lo, round_trips a hi with
  | true, true =>
      Some (if (a - lo <? hi - a)%Z then lo
            else if (hi - a <? a - lo)%Z then hi
            else if Z.even (a / p) then lo else hi)
  | true, false => Some lo
  | false, true => Some hi
  | false, false => None
  end.

Definition decimal_length (a : Z) : Z :=
  Z.of_nat (String.length (string_of_Z a)).

Fixpoint shortest_from (a : Z) (ks : list Z) : Z :=
  match ks with
  | k :: rest =>
      match pick a (Z.max 0 (decimal_length a - k)) with
      | Some c => c
      | None => shortest_from a rest
      end
  | [] => a
  end.

(** Seventeen significant digits always suffice for a double. *)
Definition shortest (a : Z) : Z :=
  shortest_from a [1; 2; 3; 4; 5; 6; 7; 8; 9; 10; 11; 12; 13; 14; 15; 16; 17]%Z.

Fixpoint strip_zeros (rev_digits : list ascii) : list ascii :=
  match rev_digits with
  | c :: r => if Ascii.eqb c "0" then strip_zeros r else rev_digits
  | [] => []
  end.

Definition significant (c : Z) : string :=
  string_of_list_ascii
    (rev (strip_zeros (rev (list_ascii_of_string (string_of_Z c))))).

(** From 10^21 on: [d.ddde+n]. *)
Definition exponential (c : Z) : string :=
  let e := string_of_Z (decimal_length c - 1) in
  match significant c with
  | String d EmptyString => String d ("e+" +:+ e)
  | String d more => String d ("." +:+ more +:+ "e+" +:+ e)
  | EmptyString => EmptyString
  end.

Definition magnitude_to_string (a : Z) : string :=
  let c := shortest a in
  if (c <? 10 ^ 21)%Z then string_of_Z c else exponential c.

(** How [console.log] prints a Number: every digit up to 2^53, the
    shortest digits beyond, exponent notation from 10^21. *)
Definition inspect_number (n : number) : string :=
  match n with
  | NaN => "NaN"
  | NegZero => "-0"
  | Num z =>
      if (Z.abs z <=? 2 ^ 53)%Z then string_of_Z z
      else
        match to_double z with
        | Num x =>
            (if (x <? 0)%Z then "-" else "") +:+ magnitude_to_string (Z.abs x)
        | NegInfinity => "-Infinity"
        | _ => "Infinity"
        end
  | PosInfinity => "Infinity"
  | NegInfinity => "-Infinity"
  end.

(** How [console.log] renders an argument after the first.  Objects do
    not occur among the results of exports of numeric type; their
    rendering is abbreviated. *)
Definition inspect (v : value) : string :=
  match v with
  | VUndefined => "undefined"
  | VNumber n => inspect_number n
  | VBigInt z => string_of_Z z +:+ "n"
  | VString s => s
  | VObject (OBuffer _) => "<Buffer>"
  | VObject (OHost name) => "[" +:+ name +:+ "]"
  end.

(** [console.log(label, v)]: the arguments joined by one space, one line. *)
Definition console_log (label : string) (v : value) : M unit :=
  emit (EvStdout (label +:+ " " +:+ inspect v)).

(** *** Truthiness and [||] on what can be [undefined] *)

(** ToBoolean of a string that may be undefined. *)
Definition truthy_string (s : option string) : bool :=
  match s with
  | Some (String _ _) => true
  | Some EmptyString => false
  | None => false
  end.

(** [a || b] where [a] is an object or undefined: objects are truthy. *)
Definition or_else {A} (a b : option A) : option A :=
  match a with
  | Some x => Some x
  | None => b
  end.

Definition is_undefined (v : value) : bool :=
  match v with
  | VUndefined => true
  | _ => false
  end.

End JS.

Notation "x <- m ;; k" := (JS.bind m (fun x => k))
  (at level 100, m at next level, right associativity).
Notation "m ;;; k" := (JS.bind m (fun _ => k))
  (at level 100, right associativity).

(** ** The host: Node.js as far as the scripts use it *)

Module Node.
Import JS.

(** An instantiated module: [instance.exports], a frozen object whose
    own properties are the exports. A name that is absent reads as
    [undefined], here [None]. *)
Record instance := { exports : gmap string export }.

Record host := {
  argv : list string;                          (* process.argv *)
  files : string -> option (list Byte.byte);   (* the readable files *)
  modules : list Byte.byte -> result instance  (* instantiating these bytes *)
}.

(** The identifiers a CommonJS module can refer to without declaring
    them: the five parameters of the module wrapper and the properties
    of the global object. *)
Definition scope : list string :=
  [ "require"; "module"; "exports"; "__filename"; "__dirname";
    "globalThis"; "global"; "process"; "console"; "Buffer";
    "WebAssembly"; "parseInt"; "parseFloat"; "isNaN"; "Number";
    "String"; "Object"; "Array"; "Error"; "TypeError"; "Promise";
    "JSON"; "Math"; "setTimeout"; "setImmediate"; "queueMicrotask" ].

Definition in_scope (x : string) : bool := existsb (String.eqb x) scope.

(** Evaluating an identifier no declaration of the script binds. *)
Definition resolve (x : string) : M value :=
  if in_scope x then ret (VObject (OHost x)) else throw (ReferenceError x).

(** [o.p] on an object of the host. *)
Definition member (o : value) (p : string) : value :=
  match o with
  | VObject (OHost n) => VObject (OHost (n +:+ "." +:+ p))
  | _ => VUndefined
  end.

(** [require('fs')]. *)
Definition require (name : string) : M value :=
  r <- resolve "require" ;;
  ret (VObject (OHost name)).

(** The value is the object of the host that goes by this name. *)
Definition is_host (v : value) (name : string) : bool :=
  match v with
  | VObject (OHost n) => String.eqb n name
  | _ => false
  end.

(** Array destructuring of [process.argv]; anything else a host object
    offers under that name is not iterable. *)
Definition to_array (h : host) (v : value) : M (list string) :=
  if is_host v "process.argv" then ret (argv h)
  else throw (TypeError "is not iterable").

(** An array element that may be missing, as a value. *)
Definition element (s : option string) : value :=
  match s with
  | Some x => VString x
  | None => VUndefined
  end.

(** The message of Node's ERR_INVALID_ARG_TYPE for the path. *)
Definition invalid_path (received : string) : string :=
  let q := String (ascii_of_nat 34) EmptyString in
  "The " +:+ q +:+ "path" +:+ q
  +:+ " argument must be of type string or an instance of Buffer or URL."
  +:+ " Received " +:+ received.

(** [f(path)] where [f] should be [fs.readFileSync].  The scripts pass
    what line 4 binds, a string or undefined. *)
Definition readFileSync (h : host) (f : value) (path : value) : M value :=
  if is_host f "fs.readFileSync" then
    match path with
    | VString p =>
        emit (EvRead p) ;;;
        match files h p with
        | Some b => ret (VObject (OBuffer b))
        | None => throw (SystemError p)
        end
    | VUndefined => throw (TypeError (invalid_path "undefined"))
    | _ => throw (TypeError (invalid_path (inspect path)))
    end
  else throw (TypeError "is not a function").

(** [await f(bytes, {})] destructured as [{ instance }], where [f]
    should be [WebAssembly.instantiate]. *)
Definition instantiate (h : host) (f : value) (bytes : value) : M instance :=
  if is_host f "WebAssembly.instantiate" then
    emit (EvInstantiate bytes) ;;;
    match bytes with
    | VObject (OBuffer b) => lift (modules h b)
    | _ => throw (TypeError "first argument must be a buffer source")
    end
  else throw (TypeError "is not a function").

(** [parseInt(s, 10)] as the scripts call it. *)
Definition parseInt (s : string) : M value :=
  f <- resolve "parseInt" ;;
  ret (VNumber (parseInt10 s)).

(** [fn(...args)] for a selected export. *)
Definition call (fn : export) (args : list value) : M value :=
  match fn with
  | ExFunc idx f => emit (EvCall idx args) ;;; lift (f args)
  | _ => throw (TypeError "fn is not a function")
  end.

(** *** Loading a script: a syntax error stops it before its first line *)

Definition is_letter (c : ascii) : bool :=
  let n := nat_of_ascii c in
  (((65 <=? n) && (n <=? 90)) || ((97 <=? n) && (n <=? 122))
   || (n =? 95) || (n =? 36))%nat.

Definition is_ident_char (c : ascii) : bool := is_letter c || is_digit c.

Definition is_blank (c : ascii) : bool :=
  let n := nat_of_ascii c in ((n =? 32) || (n =? 9))%nat.

Fixpoint skip_blanks (s : string) : string :=
  match s with
  | String c r => if is_blank c then skip_blanks r else s
  | EmptyString => EmptyString
  end.

(** The identifier name at the head of [s], and what follows it. *)
Fixpoint take_word (s : string) : string * string :=
  match s with
  | String c r =>
      if is_ident_char c
      then let '(w, rest) := take_word r in (String c w, rest)
      else (EmptyString, s)
  | EmptyString => (EmptyString, EmptyString)
  end.

(** Reserved words and contextual keywords: after one of them an
    identifier may follow on the same line, and [in], [instanceof] and
    the like may follow an identifier. *)
Definition keywords : list string :=
  [ "const"; "let"; "var"; "function"; "class"; "async"; "await";
    "yield"; "return"; "throw"; "new"; "typeof"; "delete"; "void";
    "if"; "else"; "for"; "while"; "do"; "switch"; "case"; "default";
    "try"; "catch"; "finally"; "break"; "continue"; "import"; "export";
    "extends"; "in"; "instanceof"; "of"; "static"; "get"; "set";
    "using"; "with"; "debugger" ].

Definition is_keyword (w : string) : bool := existsb (String.eqb w) keywords.

Definition starts_identifier (w : string) : bool :=
  match w with
  | String c _ => is_letter c
  | EmptyString => false
  end.

(** A line that opens with an identifier which is no keyword, followed
    after blanks by another identifier which is no keyword either: no
    production of the grammar derives that, and no semicolon is inserted
    inside a line.  The result is the second identifier.  (The lines of
    both scripts each start a statement; none lies inside a comment or a
    template literal.) *)
Definition unexpected_identifier (line : string) : option string :=
  let '(w1, r1) := take_word (skip_blanks line) in
  let '(w2, _) := take_word (skip_blanks r1) in
  if starts_identifier w1 && negb (is_keyword w1)
     && negb (String.eqb r1 (skip_blanks r1))
     && starts_identifier w2 && negb (is_keyword w2)
  then Some w2 else None.

Fixpoint first_unexpected (src : list string) : option string :=
  match src with
  | line :: rest =>
      match unexpected_identifier line with
      | Some w => Some w
      | None => first_unexpected rest
      end
  | [] => None
  end.

(** Node compiles the whole file before it runs any of it. *)
Definition load (src : list string) (main : M unit) : M unit :=
  match first_unexpected src with
  | Some w => throw (SyntaxError ("Unexpected identifier '" +:+ w +:+ "'"))
  | None => main
  end.

(** *** What the process shows *)

Fixpoint stdout (t : list event) : list string :=
  match t with
  | EvStdout line :: r => line :: stdout r
  | _ :: r => stdout r
  | [] => []
  end.

(** The exit status: an exception nobody catches, or the rejection of a
    promise nobody handles, ends the process with status 1 (the default
    of Node since version 15); otherwise it ends with 0. *)
Definition exit_status {A} (m : M A) : Z :=
  match outcome m with
  | Ok _ => 0
  | Throw _ => 1
  end.

Definition calls (t : list event) : list (N * list value) :=
  omap (fun ev => match ev with EvCall i a => Some (i, a) | _ => None end) t.

Definition reads (t : list event) : list string :=
  omap (fun ev => match ev with EvRead p => Some p | _ => None end) t.

Definition instantiations (t : list event) : list value :=
  omap (fun ev => match ev with EvInstantiate b => Some b | _ => None end) t.

(** *** Two instantiations of one module

    Each run instantiates the module anew and gets export objects of its
    own.  For a module whose functions are deterministic, what two runs
    find under a name is the same kind of export, and for a function the
    same function of the module with the same result on every argument
    list. *)
Definition same_export (a b : option export) : Prop :=
  match a, b with
  | None, None => True
  | Some (ExFunc i f), Some (ExFunc j g) =>
      i = j /\ forall args : list value, f args = g args
  | Some ExMemory, Some ExMemory => True
  | Some ExTable, Some ExTable => True
  | Some ExGlobal, Some ExGlobal => True
  | _, _ => False
  end.

Definition same_exports (names : list string) (i1 i2 : instance) : Prop :=
  forall name : string,
    In name names -> same_export (exports i1 !! name) (exports i2 !! name).

End Node.

(** ** [src/run_wasm.js] *)

Module RunWasm.
Import JS Node.

Definition source : list string :=
  [ "const fs = require('fs');";
    "";
    "(async () => {";
    "  const [,, wasmPath, argStr] = progress.argv;";
    "  const byters = fs.readFileSync(wasmPath);";
    "  const { instance } = await WebAssembly.instantiate(bytes, {});";
    "  const arg = argStr ? parseInt(argStr, 10) : undefined;";
    "";
    "  // Call the exported function (name must match your Mintora fn)";
    "  const fn = instance.exports.main || instance.exports.id;";
    "  if (!fn) throw new Error('No exported function named main/id');";
    "  const res = (arg !== undefined) ? fn(arg) : fn();";
    "  console.log('Result:', res);";
    "})();" ].

(** Line 7: [argStr ? parseInt(argStr, 10) : undefined]. *)
Definition coerce (argStr : option string) : M value :=
  match argStr with
  | Some s =>
      if truthy_string argStr then parseInt s else ret VUndefined
  | None => ret VUndefined
  end.

(** Line 10: [instance.exports.main || instance.exports.id]. *)
Definition select_export (inst : instance) : option export :=
  or_else (exports inst !! "main") (exports inst !! "id").

(** Line 12: [(arg !== undefined) ? fn(arg) : fn()]. *)
Definition invoke (fn : export) (arg : value) : M value :=
  if negb (is_undefined arg) then call fn [arg] else call fn [].

(** The argument list lines 7 and 12 together pass, as a function of
    [argStr]: the empty string is falsy, like [undefined]. *)
Definition passed (argStr : option string) : list value :=
  match argStr with
  | Some (String c r) => [VNumber (parseInt10 (String c r))]
  | _ => []
  end.

(** Lines 7 to 13, from the instance and [argStr] bound above them. *)
Definition after_instantiate (inst : instance) (argStr : option string)
  : M unit :=
  arg <- coerce argStr ;;
  match select_export inst with
  | None =>
      Error <- resolve "Error" ;;
      throw (Error_ "No exported function named main/id")
  | Some fn =>
      res <- invoke fn arg ;;
      console <- resolve "console" ;;
      console_log "Result:" res
  end.

(** Lines 5 to 13, from [fs] and the two names line 4 binds. *)
Definition from_line5 (h : host) (fs : value) (wasmPath argStr : option string)
  : M unit :=
  byters <- readFileSync h (member fs "readFileSync") (element wasmPath) ;;
  WebAssembly <- resolve "WebAssembly" ;;
  bytes <- resolve "bytes" ;;
  inst <- instantiate h (member WebAssembly "instantiate") bytes ;;
  after_instantiate inst argStr.

(** The body of the async function, lines 4 to 13. *)
Definition body (h : host) (fs : value) : M unit :=
  progress <- resolve "progress" ;;
  args <- to_array h (member progress "argv") ;;
  from_line5 h fs (args !! 2%nat) (args !! 3%nat).

(** The script: line 1, then the call of the async function. *)
Definition script (h : host) : M unit :=
  load source (fs <- require "fs" ;; body h fs).

End RunWasm.

(** ** [src/unnamed/part_000], the variant with several arguments *)

Module Part000.
Import JS Node.

Definition source : list string :=
  [ "const fs = require('fs');";
    "";
    "(async () => {";
    "  const [,, wasPath, ...argStrs] = process.argv;";
    "  const bytes = fs.readFileSync(wasmPath);";
    "  const { instance } = await WebAssemblyinstantiate(bytes, {});";
    "  coonst fn = instance.exports.main || instance.exports.id || instance.exports.add;";
    "  if (!fn) throw new Error('No exported function (main/id/add) found');";
    "  const args = argStrs.map(n => parseInt(n, 10));";
    "  const res = fn(...args);";
    "  console.log('Result:', res);";
    "})();" ].

(** Line 7, right of the [=]. *)
Definition select_export (inst : instance) : option export :=
  or_else (or_else (exports inst !! "main") (exports inst !! "id"))
          (exports inst !! "add").

(** Line 9: [argStrs.map(n => parseInt(n, 10))]. *)
Definition coerce (argStrs : list string) : M (list value) :=
  mapM (fun n => parseInt n) argStrs.

(** The values line 9 yields, as a function of [argStrs]. *)
Definition coerced (argStrs : list string) : list value :=
  map (fun n => VNumber (parseInt10 n)) argStrs.

(** Lines 8 to 11, from [fn] and [argStrs]. *)
Definition from_line8 (fn : option export) (argStrs : list string) : M unit :=
  match fn with
  | None =>
      Error <- resolve "Error" ;;
      throw (Error_ "No exported function (main/id/add) found")
  | Some fn =>
      args <- coerce argStrs ;;
      res <- call fn args ;;
      console <- resolve "console" ;;
      console_log "Result:" res
  end.

(** Lines 7 to 11 with line 7 read as the declaration of [fn] it
    misspells. *)
Definition after_instantiate (inst : instance) (argStrs : list string)
  : M unit :=
  from_line8 (select_export inst) argStrs.

(** The body of the async function, lines 4 to 11, line 7 read the same
    way: what would run if the file compiled. *)
Definition body (h : host) (fs : value) : M unit :=
  process <- resolve "process" ;;
  args <- to_array h (member process "argv") ;;
  let wasPath := args !! 2%nat in
  let argStrs := drop 3 args in
  wasmPath <- resolve "wasmPath" ;;
  bytes <- readFileSync h (member fs "readFileSync") wasmPath ;;
  WebAssemblyinstantiate <- resolve "WebAssemblyinstantiate" ;;
  inst <- instantiate h WebAssemblyinstantiate bytes ;;
  after_instantiate inst argStrs.

(** The script as Node receives it. *)
Definition script (h : host) : M unit :=
  load source (fs <- require "fs" ;; body h fs).

End Part000.

(** ** The contract in the words of the specification *)

Module Spec.
Import JS.

(** Export discovery: the first name of the preference list that the
    export table has, with what it names. *)
Fixpoint discover (preference : list string) (table : gmap string export)
  : option (string * export) :=
  match preference with
  | name :: rest =>
      match table !! name with
      | Some e => Some (name, e)
      | None => discover rest table
      end
  | [] => None
  end.

(** The integer a row of decimal digits denotes, by position. *)
Fixpoint positional (ds : list Z) : Z :=
  match ds with
  | d :: r => (d * 10 ^ Z.of_nat (length r) + positional r)%Z
  | [] => 0%Z
  end.

(** The message names a candidate. *)
Definition mentions (msg name : string) : bool :=
  match index 0 name msg with
  | Some _ => true
  | None => false
  end.

End Spec.

(** ** Modules and command lines used as concrete inputs *)

Module Examples.
Import JS Node.

(** [add(a, b) => a + b]. *)
Definition add_fn (args : list value) : result value :=
  match args with
  | [VNumber (Num a); VNumber (Num b)] => Ok (VNumber (to_double (a + b)))
  | _ => Ok (VNumber NaN)
  end.

(** [id(x) => x]. *)
Definition id_fn (args : list value) : result value :=
  match args with
  | v :: _ => Ok v
  | [] => Ok VUndefined
  end.

Definition main_fn (args : list value) : result value :=
  Ok (VNumber (Num 42)).

(** An export whose body is [unreachable]. *)
Definition trap_fn (args : list value) : result value :=
  Throw (WasmError "unreachable").

Definition add_only : instance :=
  {| exports := {[ "add" := ExFunc 0 add_fn ]} |}.

Definition id_only : instance :=
  {| exports := {[ "id" := ExFunc 0 id_fn ]} |}.

Definition main_and_id : instance :=
  {| exports := <[ "main" := ExFunc 0 main_fn ]> {[ "id" := ExFunc 1 id_fn ]} |}.

Definition trap_only : instance :=
  {| exports := {[ "main" := ExFunc 0 trap_fn ]} |}.

(** A module that exports its memory and a helper, no candidate name. *)
Definition no_entry : instance :=
  {| exports := <[ "memory" := ExMemory ]> {[ "helper" := ExFunc 0 id_fn ]} |}.

Definition wasm_magic : list Byte.byte :=
  [Byte.x00; Byte.x61; Byte.x73; Byte.x6d; Byte.x01; Byte.x00; Byte.x00; Byte.x00].

(** A machine with one module file, [mod.bin]. *)
Definition machine (cmdline : list string) (inst : instance) : host :=
  {| argv := cmdline;
     files := fun p => if String.eqb p "mod.bin" then Some wasm_magic else None;
     modules := fun _ => Ok inst |}.

Definition cmdline_2_3 : list string :=
  ["node"; "run_wasm.js"; "mod.bin"; "2"; "3"].

Definition add_2_3 : host := machine cmdline_2_3 add_only.

Definition missing_file : host :=
  machine ["node"; "run_wasm.js"; "missing.wasm"] add_only.

Definition fs : value := VObject (OHost "fs").

(** A module whose [main] is its memory, beside a function [id]. *)
Definition memory_main : instance :=
  {| exports := <[ "main" := ExMemory ]> {[ "id" := ExFunc 1 id_fn ]} |}.

(** The module of [id_only] instantiated once more, by a build that also
    exports its memory: the function object is another one. *)
Definition id_reloaded : instance :=
  {| exports := <[ "helper" := ExMemory ]>
                  {[ "id" := ExFunc 0 (fun args => Ok (hd VUndefined args)) ]} |}.

End Examples.

Import JS Node.

(** ** The effect monad *)

Lemma bind_ret {A B} (a : A) (k : A -> M B) : (x <- ret a ;; k x) = k a.
Proof. unfold bind, ret. destruct (k a) as [t r]. reflexivity. Qed.

Lemma bind_throw {A B} (e : error) (k : A -> M B) :
  (x <- throw e ;; k x) = throw e.
Proof. reflexivity. Qed.

Lemma bind_emit {B} (ev : event) (k : unit -> M B) :
  (x <- emit ev ;; k x) = (ev :: trace (k tt), outcome (k tt)).
Proof. unfold bind, emit, trace, outcome. destruct (k tt) as [t r]. reflexivity. Qed.

Lemma resolve_in_scope (x : string) :
  in_scope x = true -> resolve x = ret (VObject (OHost x)).
Proof. intros H. unfold resolve. rewrite H. reflexivity. Qed.

Lemma resolve_unbound (x : string) :
  in_scope x = false -> resolve x = throw (ReferenceError x).
Proof. intros H. unfold resolve. rewrite H. reflexivity. Qed.

(** A call of a function export: one event, then the callee's result. *)
Lemma call_func (i : N) (f : list value -> result value) (args : list value) :
  call (ExFunc i f) args = ([EvCall i args], f args).
Proof. unfold call. rewrite bind_emit. reflexivity. Qed.

(** ** The steps after instantiation *)

Section AfterInstantiate.
Variable inst : instance.

Lemma run_wasm_coerce (argStr : option string) :
  exists arg, RunWasm.coerce argStr = ret arg
    /\ (if negb (is_undefined arg) then [arg] else []) = RunWasm.passed argStr.
Proof.
  destruct argStr as [[|c r]|]; simpl.
  - exists VUndefined. split; reflexivity.
  - exists (VNumber (parseInt10 (String c r))). split; reflexivity.
  - exists VUndefined. split; reflexivity.
Qed.

Lemma run_wasm_invoke (fn : export) (argStr : option string) (arg : value) :
  (if negb (is_undefined arg) then [arg] else []) = RunWasm.passed argStr ->
  RunWasm.invoke fn arg = call fn (RunWasm.passed argStr).
Proof.
  intros <-. unfold RunWasm.invoke. destruct (negb (is_undefined arg)); reflexivity.
Qed.

(** Lines 7 to 13 of run_wasm.js when the selected export is a function. *)
Lemma run_wasm_after_func (i : N) (f : list value -> result value)
    (argStr : option string) :
  RunWasm.select_export inst = Some (ExFunc i f) ->
  RunWasm.after_instantiate inst argStr =
    match f (RunWasm.passed argStr) with
    | Ok v => ([EvCall i (RunWasm.passed argStr);
                EvStdout ("Result: " +:+ inspect v)], Ok tt)
    | Throw e => ([EvCall i (RunWasm.passed argStr)], Throw e)
    end.
Proof.
  intros Hsel. unfold RunWasm.after_instantiate.
  destruct (run_wasm_coerce argStr) as (arg & -> & Harg).
  rewrite bind_ret, Hsel, (run_wasm_invoke _ argStr) by exact Harg.
  rewrite call_func. destruct (f (RunWasm.passed argStr)); reflexivity.
Qed.

(** Lines 7 to 13 of run_wasm.js when neither name is exported. *)
Lemma run_wasm_after_none (argStr : option string) :
  RunWasm.select_export inst = None ->
  RunWasm.after_instantiate inst argStr =
    throw (Error_ "No exported function named main/id").
Proof.
  intros Hsel. unfold RunWasm.after_instantiate.
  destruct (run_wasm_coerce argStr) as (arg & -> & _).
  rewrite bind_ret, Hsel. reflexivity.
Qed.

(** Line 9 of the variant cannot throw and has no effect. *)
Lemma part000_coerce (argStrs : list string) :
  Part000.coerce argStrs = ret (Part000.coerced argStrs).
Proof.
  unfold Part000.coerce, Part000.coerced.
  induction argStrs as [|n r IH]; [reflexivity|].
  cbn [mapM map]. rewrite IH. reflexivity.
Qed.

(** Lines 8 to 11 of the variant when [fn] is a function. *)
Lemma part000_from_line8_func (i : N) (f : list value -> result value)
    (argStrs : list string) :
  Part000.from_line8 (Some (ExFunc i f)) argStrs =
    match f (Part000.coerced argStrs) with
    | Ok v => ([EvCall i (Part000.coerced argStrs);
                EvStdout ("Result: " +:+ inspect v)], Ok tt)
    | Throw e => ([EvCall i (Part000.coerced argStrs)], Throw e)
    end.
Proof.
  unfold Part000.from_line8. rewrite part000_coerce, bind_ret, call_func.
  destruct (f (Part000.coerced argStrs)); reflexivity.
Qed.

Lemma select_run_wasm_spec :
  RunWasm.select_export inst = snd <$> Spec.discover ["main"; "id"] (exports inst).
Proof.
  unfold RunWasm.select_export, or_else. simpl.
  destruct (exports inst !! "main"); [reflexivity|].
  destruct (exports inst !! "id"); reflexivity.
Qed.

Lemma select_part000_spec :
  Part000.select_export inst
  = snd <$> Spec.discover ["main"; "id"; "add"] (exports inst).
Proof.
  unfold Part000.select_export, or_else. simpl.
  destruct (exports inst !! "main"); [reflexivity|].
  destruct (exports inst !! "id"); [reflexivity|].
  destruct (exports inst !! "add"); reflexivity.
Qed.

(** Either the selected export is a function, or nothing happens but
    a throw. *)
Lemma run_wasm_after_shape (argStr : option string) :
  (exists i f, RunWasm.select_export inst = Some (ExFunc i f))
  \/ (exists e, RunWasm.after_instantiate inst argStr = throw e).
Proof.
  destruct (RunWasm.select_export inst) as [fn|] eqn:Hsel.
  - destruct fn as [i f| | |]; [left; eauto | right ..];
      unfold RunWasm.after_instantiate;
      destruct (run_wasm_coerce argStr) as (arg & -> & _);
      rewrite bind_ret, Hsel; unfold RunWasm.invoke;
      destruct (negb (is_undefined arg)); eexists; reflexivity.
  - right. eexists. apply run_wasm_after_none, Hsel.
Qed.

Lemma part000_after_shape (argStrs : list string) :
  (exists i f, Part000.select_export inst = Some (ExFunc i f))
  \/ (exists e, Part000.after_instantiate inst argStrs = throw e).
Proof.
  unfold Part000.after_instantiate, Part000.from_line8.
  destruct (Part000.select_export inst) as [[i f| | |]|];
    [left; eauto | right; rewrite ?part000_coerce, ?bind_ret; eexists; reflexivity ..].
Qed.

End AfterInstantiate.

(** ** Export discovery *)

(** C1. Both variants select the export under the first candidate name
    that the export table has, in the order the line lists them (main,
    id; in the variant main, id, add).  A module that exposes [main]
    with or without [id] has [main] selected, and when it is a function
    it is the one export the steps after instantiation call. *)
Theorem C1_preference_order (inst : instance) :
  RunWasm.select_export inst
    = snd <$> Spec.discover ["main"; "id"] (exports inst)
  /\ Part000.select_export inst
    = snd <$> Spec.discover ["main"; "id"; "add"] (exports inst)
  /\ (forall m other : export,
        exports inst !! "main" = Some m ->
        exports inst !! "id" = Some other ->
        RunWasm.select_export inst = Some m
        /\ Part000.select_export inst = Some m)
  /\ (forall (i : N) (f : list value -> result value) (other : export)
             (argStr : option string) (argStrs : list string),
        exports inst !! "main" = Some (ExFunc i f) ->
        exports inst !! "id" = Some other ->
        calls (trace (RunWasm.after_instantiate inst argStr))
          = [(i, RunWasm.passed argStr)]
        /\ calls (trace (Part000.after_instantiate inst argStrs))
          = [(i, Part000.coerced argStrs)]).
Proof.
  split; [apply select_run_wasm_spec|].
  split; [apply select_part000_spec|].
  assert (Hsel : forall m, exports inst !! "main" = Some m ->
            RunWasm.select_export inst = Some m
            /\ Part000.select_export inst = Some m).
  { intros m Hm. unfold RunWasm.select_export, Part000.select_export.
    rewrite Hm. split; reflexivity. }
  split.
  - intros m other Hm _. apply Hsel, Hm.
  - intros i f other argStr argStrs Hm _.
    destruct (Hsel _ Hm) as [Hr Hp]. split.
    + rewrite (run_wasm_after_func inst i f argStr Hr).
      destruct (f (RunWasm.passed argStr)); reflexivity.
    + unfold Part000.after_instantiate. rewrite Hp, part000_from_line8_func.
      destruct (f (Part000.coerced argStrs)); reflexivity.
Qed.

Lemma C1_preference_order_witness :
  RunWasm.select_export Examples.main_and_id = Some (ExFunc 0 Examples.main_fn)
  /\ Part000.select_export Examples.main_and_id = Some (ExFunc 0 Examples.main_fn)
  /\ calls (trace (RunWasm.after_instantiate Examples.main_and_id (Some "7")))
     = [(0%N, [VNumber (Num 7)])]
  /\ calls (trace (Part000.after_instantiate Examples.main_and_id ["7"; "8"]))
     = [(0%N, [VNumber (Num 7); VNumber (Num 8)])].
Proof.
  destruct (C1_preference_order Examples.main_and_id) as (_ & _ & Hsel & Hcall).
  destruct (Hsel (ExFunc 0 Examples.main_fn) (ExFunc 1 Examples.id_fn)
              eq_refl eq_refl) as [Hr Hp].
  destruct (Hcall 0%N Examples.main_fn (ExFunc 1 Examples.id_fn)
              (Some "7") ["7"; "8"] eq_refl eq_refl) as [Hcr Hcp].
  repeat split; assumption.
Defined.

(** ** No entry point *)

(** C4. When the export table has none of the candidate names of a
    variant, its steps after instantiation throw the error of the
    [if (!fn)] line and do nothing else: no event is recorded, so no
    export is called, and the message names every candidate tried. *)
Theorem C4_no_entry_point (inst : instance) :
  (exports inst !! "main" = None -> exports inst !! "id" = None ->
   forall argStr : option string,
     RunWasm.after_instantiate inst argStr
       = ([], Throw (Error_ "No exported function named main/id"))
     /\ calls (trace (RunWasm.after_instantiate inst argStr)) = []
     /\ forallb (Spec.mentions "No exported function named main/id")
                ["main"; "id"] = true)
  /\ (exports inst !! "main" = None -> exports inst !! "id" = None ->
      exports inst !! "add" = None ->
      forall argStrs : list string,
        Part000.after_instantiate inst argStrs
          = ([], Throw (Error_ "No exported function (main/id/add) found"))
        /\ calls (trace (Part000.after_instantiate inst argStrs)) = []
        /\ forallb (Spec.mentions "No exported function (main/id/add) found")
                   ["main"; "id"; "add"] = true).
Proof.
  split.
  - intros Hmain Hid argStr.
    assert (Hsel : RunWasm.select_export inst = None).
    { unfold RunWasm.select_export. rewrite Hmain, Hid. reflexivity. }
    rewrite (run_wasm_after_none inst argStr Hsel).
    repeat split; reflexivity.
  - intros Hmain Hid Hadd argStrs.
    unfold Part000.after_instantiate, Part000.select_export.
    rewrite Hmain, Hid, Hadd. repeat split; reflexivity.
Qed.

Lemma C4_no_entry_point_witness :
  RunWasm.after_instantiate Examples.no_entry (Some "7")
    = ([], Throw (Error_ "No exported function named main/id"))
  /\ Part000.after_instantiate Examples.no_entry ["7"; "8"]
    = ([], Throw (Error_ "No exported function (main/id/add) found")).
Proof.
  destruct (C4_no_entry_point Examples.no_entry) as [Hr Hp]. split.
  - apply (Hr eq_refl eq_refl (Some "7")).
  - apply (Hp eq_refl eq_refl eq_refl ["7"; "8"]).
Defined.

(** ** [parseInt] with radix 10 *)

Lemma fold_digits (ds : list Z) (acc : Z) :
  fold_left (fun a d => 10 * a + d)%Z ds acc
  = (acc * 10 ^ Z.of_nat (length ds) + Spec.positional ds)%Z.
Proof.
  revert acc. induction ds as [|d r IH]; intros acc.
  - simpl. lia.
  - cbn [fold_left Spec.positional length]. rewrite IH.
    rewrite Nat2Z.inj_succ, Z.pow_succ_r by lia. ring.
Qed.

Lemma math_int_positional (ds : list Z) : math_int ds = Spec.positional ds.
Proof. unfold math_int. rewrite fold_digits. lia. Qed.

Lemma digits_of_app (p rest : string) :
  forallb is_digit (list_ascii_of_string p) = true ->
  digits_of rest = [] ->
  digits_of (p +:+ rest) = map digit_value (list_ascii_of_string p).
Proof.
  intros Hp Hrest. induction p as [|c p IH]; simpl in *.
  - exact Hrest.
  - apply andb_prop in Hp as [Hc Hp]. rewrite Hc, (IH Hp). reflexivity.
Qed.

(** A byte of ASCII that is no white space ends the trimming. *)
Lemma trim_start_ascii (a : ascii) (s : string) :
  (nat_of_ascii a < 128)%nat -> is_white_space a = false ->
  trim_start (String a s) = String a s.
Proof.
  intros Hlow Hws. cbn [trim_start]. rewrite Hws.
  assert (E : forall n, (128 <= n)%nat -> (nat_of_ascii a =? n)%nat = false).
  { intros n Hn. apply Nat.eqb_neq. lia. }
  assert (H2 : forall b, is_white_space2 a b = false).
  { intros b. unfold is_white_space2. rewrite E by lia. reflexivity. }
  assert (H3 : forall b c, is_white_space3 a b c = false).
  { intros b c. unfold is_white_space3. cbv zeta. rewrite !E by lia. reflexivity. }
  destruct s as [|b [|c r]]; rewrite ?H2, ?H3; reflexivity.
Qed.

Lemma digit_ascii (c : ascii) :
  is_digit c = true -> (nat_of_ascii c < 128)%nat /\ is_white_space c = false.
Proof.
  unfold is_digit, is_white_space. cbv zeta. intros H.
  apply andb_prop in H as [Hlo Hhi].
  apply Nat.leb_le in Hlo. apply Nat.leb_le in Hhi. split; [lia|].
  repeat (apply orb_false_intro); apply Nat.eqb_neq; lia.
Qed.

Lemma digit_unsigned (c : ascii) (r : string) :
  is_digit c = true -> strip_sign (String c r) = (1%Z, String c r).
Proof.
  destruct c as [[] [] [] [] [] [] [] []]; intros H;
    first [ reflexivity | vm_compute in H; discriminate H ].
Qed.

Lemma parseInt10_digit_head (c : ascii) (s : string) :
  is_digit c = true ->
  parseInt10 (String c s) = to_number 1 (math_int (digits_of (String c s))).
Proof.
  intros Hc. destruct (digit_ascii c Hc) as [Hlow Hws]. unfold parseInt10.
  rewrite (trim_start_ascii c s Hlow Hws), (digit_unsigned c _ Hc).
  cbn [digits_of]. rewrite Hc. reflexivity.
Qed.

Lemma parseInt10_minus (s : string) :
  parseInt10 (String "-" s)
  = match digits_of s with
    | [] => NaN
    | ds => to_number (-1) (math_int ds)
    end.
Proof.
  unfold parseInt10. rewrite trim_start_ascii; [reflexivity | | reflexivity].
  vm_compute. lia.
Qed.

Lemma parseInt10_plus (s : string) :
  parseInt10 (String "+" s)
  = match digits_of s with
    | [] => NaN
    | ds => to_number 1 (math_int ds)
    end.
Proof.
  unfold parseInt10. rewrite trim_start_ascii; [reflexivity | | reflexivity].
  vm_compute. lia.
Qed.

(** *** Rounding to a double *)

Lemma to_double_safe (z : Z) : (Z.abs z <= 2 ^ 53)%Z -> to_double z = Num z.
Proof.
  intros Hz. assert (Hcases : (Z.abs z < 2 ^ 53 \/ Z.abs z = 2 ^ 53)%Z) by lia.
  destruct Hcases as [Hlt|Heq].
  - unfold to_double, nearest_double.
    apply Z.ltb_lt in Hlt. rewrite Hlt. apply Z.ltb_lt in Hlt.
    assert (Hsmall : (2 ^ 1024 <=? Z.abs z)%Z = false).
    { apply Z.leb_gt. eapply Z.lt_trans; [exact Hlt|]. reflexivity. }
    rewrite Hsmall. f_equal. destruct z; reflexivity.
  - assert (Hz' : z = (2 ^ 53)%Z \/ z = (- 2 ^ 53)%Z) by lia.
    destruct Hz' as [-> | ->]; vm_compute; reflexivity.
Qed.

Lemma to_double_not_nan (z : Z) : to_double z <> NaN.
Proof.
  unfold to_double. destruct (2 ^ 1024 <=? _)%Z; [|discriminate].
  destruct (z <? 0)%Z; discriminate.
Qed.

Lemma to_number_not_nan (sign m : Z) : to_number sign m <> NaN.
Proof.
  unfold to_number. destruct (m =? 0)%Z; [|apply to_double_not_nan].
  destruct (sign <? 0)%Z; discriminate.
Qed.

Lemma to_number_plus (m : Z) : to_number 1 m = to_double m.
Proof.
  unfold to_number. destruct (m =? 0)%Z eqn:E.
  - apply Z.eqb_eq in E. rewrite E. reflexivity.
  - f_equal. lia.
Qed.

(** A token has no value exactly when no digit follows the white space
    and the sign in front of it. *)
Lemma parseInt10_nan_iff (s : string) :
  parseInt10 s = NaN <-> digits_of (snd (strip_sign (trim_start s))) = [].
Proof.
  unfold parseInt10. destruct (strip_sign (trim_start s)) as [sign body].
  cbn [snd]. destruct (digits_of body) as [|d ds].
  - split; reflexivity.
  - split; [intros H; destruct (to_number_not_nan _ _ H) | discriminate].
Qed.

(** A token that opens with digits has the Number nearest to the value
    of those digits. *)
Lemma parseInt10_prefix (c : ascii) (p rest : string) :
  is_digit c = true ->
  forallb is_digit (list_ascii_of_string p) = true ->
  digits_of rest = [] ->
  parseInt10 (String c p +:+ rest)
  = to_double (Spec.positional (map digit_value (c :: list_ascii_of_string p))).
Proof.
  intros Hc Hp Hrest.
  change (String c p +:+ rest) with (String c (p +:+ rest)).
  rewrite (parseInt10_digit_head c _ Hc).
  cbn [digits_of]. rewrite Hc, (digits_of_app p rest Hp Hrest).
  rewrite math_int_positional. apply to_number_plus.
Qed.

(** *** Decimal numerals read back

    [string_of_Z] writes an integer the way one types it on a command
    line; [parseInt] gives the Number nearest to it, whatever follows the
    digits, which up to 2^53 is the integer itself. *)

(** One digit of the numeral is consumed. *)
Ltac numeral_step rest :=
  change (String ?c ?s +:+ rest) with (String c (s +:+ rest));
  cbn [digits_of];
  match goal with
  | |- context [is_digit ?c] => change (is_digit c) with true
  end;
  cbn iota; cbn [fold_left].

Lemma digits_of_uint_acc (d : Decimal.uint) (rest : string) (acc : positive) :
  digits_of rest = [] ->
  fold_left (fun a x => 10 * a + x)%Z
    (digits_of (NilEmpty.string_of_uint d +:+ rest)) (Z.pos acc)
  = Z.pos (Pos.of_uint_acc d acc).
Proof.
  intros Hrest. revert acc.
  induction d as [|d IH|d IH|d IH|d IH|d IH|d IH|d IH|d IH|d IH|d IH];
    intros acc; cbn [NilEmpty.string_of_uint Pos.of_uint_acc];
    [ change ("" +:+ rest) with rest; rewrite Hrest; reflexivity
    | numeral_step rest; rewrite <- IH; f_equal; vm_compute digit_value; lia .. ].
Qed.

Lemma digits_of_uint (d : Decimal.uint) (rest : string) :
  digits_of rest = [] ->
  math_int (digits_of (NilEmpty.string_of_uint d +:+ rest))
  = Z.of_N (Pos.of_uint d).
Proof.
  intros Hrest. unfold math_int.
  induction d as [|d IH|d IH|d IH|d IH|d IH|d IH|d IH|d IH|d IH|d IH];
    cbn [NilEmpty.string_of_uint Pos.of_uint];
    [ change ("" +:+ rest) with rest; rewrite Hrest; reflexivity
    | numeral_step rest;
      first [ exact IH | apply (digits_of_uint_acc d rest _ Hrest) ] .. ].
Qed.

Lemma numeral_head (d : Decimal.uint) :
  d <> Decimal.Nil ->
  exists c s, NilEmpty.string_of_uint d = String c s /\ is_digit c = true.
Proof.
  destruct d; [congruence | intros _; eexists; eexists; split; reflexivity ..].
Qed.

Lemma parseInt10_pos (p : positive) (rest : string) :
  digits_of rest = [] ->
  parseInt10 (NilEmpty.string_of_uint (Pos.to_uint p) +:+ rest)
  = to_double (Z.pos p)
  /\ parseInt10 (String "-" (NilEmpty.string_of_uint (Pos.to_uint p) +:+ rest))
     = to_double (Z.neg p).
Proof.
  intros Hrest.
  pose proof (digits_of_uint (Pos.to_uint p) rest Hrest) as Hval.
  rewrite DecimalPos.Unsigned.of_to in Hval.
  destruct (numeral_head (Pos.to_uint p) (DecimalPos.Unsigned.to_uint_nonnil p))
    as (c & s & Hs & Hc).
  rewrite Hs in *. change (String c s +:+ rest) with (String c (s +:+ rest)) in *.
  split.
  - rewrite (parseInt10_digit_head c _ Hc), Hval. reflexivity.
  - rewrite parseInt10_minus. revert Hval. cbn [digits_of]. rewrite Hc.
    intros ->. reflexivity.
Qed.

Lemma parseInt10_numeral (z : Z) (rest : string) :
  digits_of rest = [] -> parseInt10 (string_of_Z z +:+ rest) = to_double z.
Proof.
  intros Hrest. destruct z as [|p|p]; unfold string_of_Z, Z.to_int.
  - cbn [NilZero.string_of_int NilZero.string_of_uint NilEmpty.string_of_uint].
    change ("0" +:+ rest) with (String "0" rest).
    rewrite parseInt10_digit_head by reflexivity.
    cbn [digits_of]. change (is_digit "0") with true. cbn iota.
    rewrite Hrest. reflexivity.
  - cbn [NilZero.string_of_int]. unfold NilZero.string_of_uint.
    pose proof (DecimalPos.Unsigned.to_uint_nonnil p) as Hnil.
    destruct (Pos.to_uint p) eqn:E;
      [congruence | rewrite <- E; apply parseInt10_pos, Hrest ..].
  - cbn [NilZero.string_of_int]. unfold NilZero.string_of_uint.
    pose proof (DecimalPos.Unsigned.to_uint_nonnil p) as Hnil.
    destruct (Pos.to_uint p) eqn:E;
      [congruence | rewrite <- E; apply parseInt10_pos, Hrest ..].
Qed.

Lemma append_empty (s : string) : s +:+ "" = s.
Proof.
  induction s as [|c s IH]; [reflexivity|].
  change (String c s +:+ "") with (String c (s +:+ "")). rewrite IH. reflexivity.
Qed.

Lemma parseInt10_string_of_Z (z : Z) :
  parseInt10 (string_of_Z z) = to_double z.
Proof.
  rewrite <- (append_empty (string_of_Z z)). apply parseInt10_numeral. reflexivity.
Qed.

Lemma coerced_numerals (zs : list Z) :
  Part000.coerced (map string_of_Z zs) = map (fun z => VNumber (to_double z)) zs.
Proof.
  unfold Part000.coerced. induction zs as [|z r IH]; [reflexivity|].
  cbn [map]. rewrite IH, parseInt10_string_of_Z. reflexivity.
Qed.

Lemma safe_numerals (zs : list Z) :
  Forall (fun z => (Z.abs z <= 2 ^ 53)%Z) zs ->
  map (fun z => VNumber (to_double z)) zs = map (fun z => VNumber (Num z)) zs.
Proof.
  induction 1 as [|z r Hz _ IH]; [reflexivity|].
  cbn [map]. rewrite IH, (to_double_safe z Hz). reflexivity.
Qed.

Lemma coerce_length (argStrs : list string) :
  length (Part000.coerced argStrs) = length argStrs.
Proof. unfold Part000.coerced. apply length_map. Qed.

Lemma coerce_lookup (argStrs : list string) (k : nat) (s : string) :
  argStrs !! k = Some s ->
  Part000.coerced argStrs !! k = Some (VNumber (parseInt10 s)).
Proof.
  intros H. unfold Part000.coerced.
  change (map ?f ?l) with (f <$> l). rewrite list_lookup_fmap, H. reflexivity.
Qed.

(** ** Coercion and invocation *)

Lemma positional_digits_nonneg (cs : list ascii) :
  forallb is_digit cs = true ->
  (0 <= Spec.positional (map digit_value cs))%Z.
Proof.
  induction cs as [|c r IH]; cbn [forallb map Spec.positional]; [lia|].
  intros H. apply andb_prop in H as [Hc Hr]. specialize (IH Hr).
  unfold is_digit in Hc. cbv zeta in Hc. apply andb_prop in Hc as [Hlo _].
  apply Nat.leb_le in Hlo.
  assert (0 <= digit_value c)%Z by (unfold digit_value; lia).
  assert (0 <= 10 ^ Z.of_nat (length (map digit_value r)))%Z
    by (apply Z.pow_nonneg; lia).
  nia.
Qed.

(** C10, as the code has it. In the variant, coercion is
    [parseInt(n, 10)] mapped over the tokens and cannot fail: line 9
    neither throws nor has an effect.  A token that opens with digits
    gets the Number nearest to the value of those digits: the value
    itself up to 2^53 (12 for "12abc", 3 for "3.5"), a rounded double
    beyond.  The numeral of an integer followed by anything but a digit
    is read the same way.  A token gets NaN exactly when no digit follows
    its leading white space and sign ("abc").  The coerced list has one
    Number per token, and the call of the export is the first thing that
    happens on it, with nothing checked in between. *)
Theorem C10_coercion_never_rejects :
  parseInt10 "12abc" = Num 12
  /\ parseInt10 "3.5" = Num 3
  /\ parseInt10 "abc" = NaN
  /\ (forall (c : ascii) (p rest : string),
        is_digit c = true ->
        forallb is_digit (list_ascii_of_string p) = true ->
        digits_of rest = [] ->
        parseInt10 (String c p +:+ rest)
        = to_double
            (Spec.positional (map digit_value (c :: list_ascii_of_string p)))
        /\ ((Spec.positional (map digit_value (c :: list_ascii_of_string p))
             <= 2 ^ 53)%Z ->
            parseInt10 (String c p +:+ rest)
            = Num (Spec.positional
                     (map digit_value (c :: list_ascii_of_string p)))))
  /\ (forall s : string,
        parseInt10 s = NaN
        <-> digits_of (snd (strip_sign (trim_start s))) = [])
  /\ (forall (z : Z) (rest : string),
        digits_of rest = [] ->
        parseInt10 (string_of_Z z +:+ rest) = to_double z
        /\ ((Z.abs z <= 2 ^ 53)%Z ->
            parseInt10 (string_of_Z z +:+ rest) = Num z))
  /\ (forall argStrs : list string,
        Part000.coerce argStrs = ([], Ok (Part000.coerced argStrs))
        /\ length (Part000.coerced argStrs) = length argStrs
        /\ forall (k : nat) (s : string),
             argStrs !! k = Some s ->
             Part000.coerced argStrs !! k = Some (VNumber (parseInt10 s)))
  /\ (forall (i : N) (f : list value -> result value) (argStrs : list string),
        exists t,
          trace (Part000.from_line8 (Some (ExFunc i f)) argStrs)
          = EvCall i (Part000.coerced argStrs) :: t).
Proof.
  split; [reflexivity|]. split; [reflexivity|]. split; [reflexivity|].
  split.
  { intros c p rest Hc Hp Hrest.
    pose proof (parseInt10_prefix c p rest Hc Hp Hrest) as Hval.
    split; [exact Hval|]. intros Hsafe. rewrite Hval. apply to_double_safe.
    pose proof (positional_digits_nonneg (c :: list_ascii_of_string p)) as Hpos.
    cbn [forallb] in Hpos. rewrite Hc, Hp in Hpos. specialize (Hpos eq_refl).
    lia. }
  split; [exact parseInt10_nan_iff|]. split.
  { intros z rest Hrest. pose proof (parseInt10_numeral z rest Hrest) as Hval.
    split; [exact Hval|]. intros Hsafe. rewrite Hval. apply to_double_safe, Hsafe. }
  split.
  - intros argStrs. split; [apply part000_coerce|].
    split; [apply coerce_length|]. intros k s. apply coerce_lookup.
  - intros i f argStrs. rewrite part000_from_line8_func.
    destruct (f (Part000.coerced argStrs)); eexists; reflexivity.
Qed.

Lemma C10_coercion_never_rejects_witness :
  parseInt10 ("2024" +:+ "-06") = Num 2024
  /\ parseInt10 "-x1" = NaN
  /\ Part000.coerced ["12abc"; "abc"] !! 1%nat = Some (VNumber NaN)
  /\ parseInt10 (string_of_Z (-17) +:+ "px") = Num (-17).
Proof.
  destruct C10_coercion_never_rejects
    as (_ & _ & _ & Hpre & Hnan & Hnum & Hmap & _).
  split; [|split; [|split]].
  - apply (proj2 (Hpre "2"%char "024" "-06" eq_refl eq_refl eq_refl)).
    vm_compute. discriminate.
  - apply (proj2 (Hnan "-x1")). reflexivity.
  - apply (proj2 (proj2 (Hmap ["12abc"; "abc"])) 1%nat "abc"). reflexivity.
  - apply (proj2 (Hnum (-17)%Z "px" eq_refl)). vm_compute. discriminate.
Defined.

(** C10 as stated fails beyond 2^53: the token "9007199254740993abc"
    opens with the digits of 2^53 + 1, and [parseInt] gives
    9007199254740992, the nearest double, not the value of the prefix. *)
Lemma C10_counterexample :
  Spec.positional (map digit_value (list_ascii_of_string "9007199254740993"))
  = 9007199254740993%Z
  /\ parseInt10 "9007199254740993abc" = Num 9007199254740992
  /\ parseInt10 "9007199254740993abc" <> Num 9007199254740993.
Proof. split; [reflexivity|]. split; [reflexivity|]. discriminate. Qed.

(** C2, as the code has it. The variant calls the selected export with
    exactly one value per token, the k-th being [parseInt] of the k-th
    token (a Number, possibly NaN), in the order of the command line;
    tokens that are the numerals of integers arrive as the nearest
    doubles, which up to 2^53 are those integers.
    run_wasm.js passes the first token alone, and nothing when it is
    missing or empty.  Neither checks the count, and an error the call
    throws ends the run as it is, nothing printed. *)
Theorem C2_arguments_passed (inst : instance) (i : N)
    (f : list value -> result value) :
  (Part000.select_export inst = Some (ExFunc i f) ->
   forall argStrs : list string,
     calls (trace (Part000.after_instantiate inst argStrs))
       = [(i, map (fun s => VNumber (parseInt10 s)) argStrs)]
     /\ length (map (fun s => VNumber (parseInt10 s)) argStrs) = length argStrs
     /\ (forall zs : list Z,
           argStrs = map string_of_Z zs ->
           calls (trace (Part000.after_instantiate inst argStrs))
           = [(i, map (fun z => VNumber (to_double z)) zs)]
           /\ (Forall (fun z => (Z.abs z <= 2 ^ 53)%Z) zs ->
               calls (trace (Part000.after_instantiate inst argStrs))
               = [(i, map (fun z => VNumber (Num z)) zs)]))
     /\ (forall e, f (Part000.coerced argStrs) = Throw e ->
           Part000.after_instantiate inst argStrs
           = ([EvCall i (Part000.coerced argStrs)], Throw e)))
  /\ (RunWasm.select_export inst = Some (ExFunc i f) ->
      forall cmdline : list string,
        calls (trace (RunWasm.after_instantiate inst (cmdline !! 3%nat)))
          = [(i, RunWasm.passed (cmdline !! 3%nat))]
        /\ (length (RunWasm.passed (cmdline !! 3%nat)) <= 1)%nat
        /\ (forall e, f (RunWasm.passed (cmdline !! 3%nat)) = Throw e ->
              RunWasm.after_instantiate inst (cmdline !! 3%nat)
              = ([EvCall i (RunWasm.passed (cmdline !! 3%nat))], Throw e))).
Proof.
  split.
  - intros Hsel argStrs. unfold Part000.after_instantiate.
    rewrite Hsel, part000_from_line8_func.
    split; [|split; [|split]].
    + destruct (f (Part000.coerced argStrs)); reflexivity.
    + apply length_map.
    + intros zs ->. rewrite coerced_numerals.
      split; [|intros Hsafe; rewrite (safe_numerals zs Hsafe)];
        destruct (f _); reflexivity.
    + intros e ->. reflexivity.
  - intros Hsel cmdline. rewrite (run_wasm_after_func inst i f _ Hsel).
    split; [|split].
    + destruct (f _); reflexivity.
    + destruct (cmdline !! 3%nat) as [[|c r]|]; simpl; lia.
    + intros e ->. reflexivity.
Qed.

Lemma C2_arguments_passed_witness :
  calls (trace (Part000.after_instantiate Examples.add_only ["2"; "3"]))
    = [(0%N, [VNumber (Num 2); VNumber (Num 3)])]
  /\ calls (trace (RunWasm.after_instantiate Examples.id_only
                     (Examples.cmdline_2_3 !! 3%nat)))
    = [(0%N, [VNumber (Num 2)])]
  /\ Part000.after_instantiate Examples.trap_only ["1"]
    = ([EvCall 0 [VNumber (Num 1)]], Throw (WasmError "unreachable"))
  /\ calls (trace (Part000.after_instantiate Examples.add_only ["-4"; "10"]))
    = [(0%N, [VNumber (Num (-4)); VNumber (Num 10)])].
Proof.
  destruct (proj1 (C2_arguments_passed Examples.add_only 0%N Examples.add_fn)
              eq_refl ["2"; "3"]) as (Hcalls & _).
  destruct (proj2 (C2_arguments_passed Examples.id_only 0%N Examples.id_fn)
              eq_refl Examples.cmdline_2_3) as (Hone & _).
  destruct (proj1 (C2_arguments_passed Examples.trap_only 0%N Examples.trap_fn)
              eq_refl ["1"]) as (_ & _ & _ & Hthrow).
  destruct (proj1 (C2_arguments_passed Examples.add_only 0%N Examples.add_fn)
              eq_refl ["-4"; "10"]) as (_ & _ & Hnum & _).
  split; [exact Hcalls|]. split; [exact Hone|].
  split; [exact (Hthrow _ eq_refl)|].
  apply (proj2 (Hnum [-4; 10]%Z eq_refl)).
  repeat constructor; vm_compute; discriminate.
Defined.

(** C2 as stated fails on run_wasm.js: with the two tokens "2" and "3"
    on the command line, line 4 binds the first one alone and the export
    is called with one argument, not two. *)
Lemma C2_counterexample :
  drop 3 Examples.cmdline_2_3 = ["2"; "3"]
  /\ calls (trace (RunWasm.after_instantiate Examples.main_and_id
                     (Examples.cmdline_2_3 !! 3%nat)))
     = [(0%N, [VNumber (Num 2)])]
  /\ calls (trace (RunWasm.after_instantiate Examples.main_and_id
                     (Examples.cmdline_2_3 !! 3%nat)))
     <> [(0%N, Part000.coerced (drop 3 Examples.cmdline_2_3))].
Proof. split; [reflexivity|]. split; [reflexivity|]. discriminate. Qed.




(** ** The result line *)

(** C6, as the code has it. When the steps after instantiation succeed,
    the selected export is a function that returned a value, stdout holds
    the single line [Result: <value>] and the exit status is 0.  In the
    variant, whose candidates include [add], a module exporting
    [add(a, b) => a + b] with the tokens "2" and "3" gives [Result: 5]. *)
Theorem C6_result_line :
  (forall (inst : instance) (argStrs : list string),
     outcome (Part000.after_instantiate inst argStrs) = Ok tt ->
     exists i f v,
       Part000.select_export inst = Some (ExFunc i f)
       /\ f (Part000.coerced argStrs) = Ok v
       /\ stdout (trace (Part000.after_instantiate inst argStrs))
          = ["Result: " +:+ inspect v]
       /\ exit_status (Part000.after_instantiate inst argStrs) = 0%Z)
  /\ (forall (inst : instance) (argStr : option string),
        outcome (RunWasm.after_instantiate inst argStr) = Ok tt ->
        exists i f v,
          RunWasm.select_export inst = Some (ExFunc i f)
          /\ f (RunWasm.passed argStr) = Ok v
          /\ stdout (trace (RunWasm.after_instantiate inst argStr))
             = ["Result: " +:+ inspect v]
          /\ exit_status (RunWasm.after_instantiate inst argStr) = 0%Z)
  /\ stdout (trace (Part000.after_instantiate Examples.add_only ["2"; "3"]))
     = ["Result: 5"]
  /\ exit_status (Part000.after_instantiate Examples.add_only ["2"; "3"]) = 0%Z.
Proof.
  split; [|split; [|split; reflexivity]].
  - intros inst argStrs Hok.
    destruct (part000_after_shape inst argStrs) as [(i & f & Hsel)|[e He]];
      [|rewrite He in Hok; discriminate Hok].
    revert Hok. unfold Part000.after_instantiate, exit_status.
    rewrite Hsel, part000_from_line8_func.
    destruct (f (Part000.coerced argStrs)) as [v|e] eqn:Hf; [|discriminate].
    intros _. exists i, f, v. repeat split; solve [reflexivity | exact Hf | exact Hsel].
  - intros inst argStr Hok.
    destruct (run_wasm_after_shape inst argStr) as [(i & f & Hsel)|[e He]];
      [|rewrite He in Hok; discriminate Hok].
    revert Hok. unfold exit_status.
    rewrite (run_wasm_after_func inst i f argStr Hsel).
    destruct (f (RunWasm.passed argStr)) as [v|e] eqn:Hf; [|discriminate].
    intros _. exists i, f, v. repeat split; solve [reflexivity | exact Hf | exact Hsel].
Qed.

Lemma C6_result_line_witness :
  stdout (trace (Part000.after_instantiate Examples.id_only ["7"])) = ["Result: 7"]
  /\ stdout (trace (RunWasm.after_instantiate Examples.id_only (Some "7")))
     = ["Result: 7"].
Proof.
  split.
  - destruct (proj1 C6_result_line Examples.id_only ["7"] eq_refl)
      as (i & f & v & Hsel & Hf & Hout & _).
    injection Hsel as <- <-. injection Hf as <-. exact Hout.
  - destruct (proj1 (proj2 C6_result_line) Examples.id_only (Some "7") eq_refl)
      as (i & f & v & Hsel & Hf & Hout & _).
    injection Hsel as <- <-. injection Hf as <-. exact Hout.
Defined.

(** C6 as stated fails on run_wasm.js: for the module that exports
    [add] and the tokens "2" and "3", its candidates are main and id
    only, so the steps after instantiation throw and print nothing; the
    script itself stops before them and prints nothing either. *)
Lemma C6_counterexample :
  RunWasm.after_instantiate Examples.add_only (Examples.cmdline_2_3 !! 3%nat)
    = ([], Throw (Error_ "No exported function named main/id"))
  /\ stdout (trace (RunWasm.script Examples.add_2_3)) = []
  /\ stdout (trace (RunWasm.script Examples.add_2_3)) <> ["Result: 5"]
  /\ exit_status (RunWasm.script Examples.add_2_3) <> 0%Z.
Proof. repeat split; try reflexivity; discriminate. Qed.

(** ** The scripts as written *)

Section Scripts.
Variable h : host.

Lemma run_wasm_script : RunWasm.script h = throw (ReferenceError "progress").
Proof. reflexivity. Qed.

Lemma part000_script :
  Part000.script h = throw (SyntaxError "Unexpected identifier 'fn'").
Proof. reflexivity. Qed.

Lemma part000_body (fs : value) :
  Part000.body h fs = throw (ReferenceError "wasmPath").
Proof. reflexivity. Qed.

(** What [f(path)] records: nothing, or the one read. *)
Lemma readFileSync_trace (f path : value) :
  trace (readFileSync h f path) = []
  \/ exists p, path = VString p /\ trace (readFileSync h f path) = [EvRead p].
Proof.
  unfold readFileSync. destruct (is_host f "fs.readFileSync"); [|left; reflexivity].
  destruct path as [|n|z|p|o]; try (left; reflexivity).
  right. exists p. split; [reflexivity|]. rewrite bind_emit.
  destruct (files h p); reflexivity.
Qed.

(** Lines 5 to 13 of run_wasm.js stop at [bytes] on line 6, if the read
    on line 5 has not thrown already. *)
Lemma run_wasm_from_line5 (fs : value) (wasmPath argStr : option string) :
  RunWasm.from_line5 h fs wasmPath argStr
  = (byters <- readFileSync h (member fs "readFileSync") (element wasmPath) ;;
     throw (ReferenceError "bytes")).
Proof.
  unfold RunWasm.from_line5.
  destruct (readFileSync h (member fs "readFileSync") (element wasmPath))
    as [t [v|e]]; reflexivity.
Qed.

Lemma run_wasm_from_line5_trace (fs : value) (wasmPath argStr : option string) :
  trace (RunWasm.from_line5 h fs wasmPath argStr)
  = trace (readFileSync h (member fs "readFileSync") (element wasmPath))
  /\ exists e, outcome (RunWasm.from_line5 h fs wasmPath argStr) = Throw e.
Proof.
  rewrite run_wasm_from_line5.
  destruct (readFileSync h (member fs "readFileSync") (element wasmPath))
    as [t [v|e]]; simpl.
  - split; [apply app_nil_r | eexists; reflexivity].
  - split; [reflexivity | eexists; reflexivity].
Qed.

End Scripts.

(** C8. For every host, whatever its command line, run_wasm.js throws
    the ReferenceError of [progress] on line 4: nothing is read or
    instantiated, nothing is printed and the exit status is 1.  Neither
    [progress] nor [bytes] is in scope, and lines 5 to 13 on their own
    cannot instantiate or print either, they throw at [bytes] at the
    latest. *)
Theorem C8_run_wasm_reference_error (h : host) :
  in_scope "progress" = false
  /\ in_scope "bytes" = false
  /\ RunWasm.script h = ([], Throw (ReferenceError "progress"))
  /\ reads (trace (RunWasm.script h)) = []
  /\ instantiations (trace (RunWasm.script h)) = []
  /\ stdout (trace (RunWasm.script h)) = []
  /\ exit_status (RunWasm.script h) = 1%Z
  /\ (forall (fs : value) (wasmPath argStr : option string),
        instantiations (trace (RunWasm.from_line5 h fs wasmPath argStr)) = []
        /\ stdout (trace (RunWasm.from_line5 h fs wasmPath argStr)) = []
        /\ exists e, outcome (RunWasm.from_line5 h fs wasmPath argStr) = Throw e)
  /\ (forall (argStr : option string) (p : string) (b : list Byte.byte),
        files h p = Some b ->
        RunWasm.from_line5 h Examples.fs (Some p) argStr
        = ([EvRead p], Throw (ReferenceError "bytes"))).
Proof.
  repeat (split; [reflexivity|]). split.
  - intros fs wasmPath argStr.
    destruct (run_wasm_from_line5_trace h fs wasmPath argStr) as [-> He].
    destruct (readFileSync_trace h (member fs "readFileSync") (element wasmPath))
      as [->|(p & _ & ->)]; repeat split; solve [reflexivity | exact He].
  - intros argStr p b Hfile. rewrite run_wasm_from_line5.
    unfold readFileSync. simpl. rewrite Hfile. reflexivity.
Qed.

Lemma C8_run_wasm_reference_error_witness :
  files Examples.add_2_3 "mod.bin" = Some Examples.wasm_magic
  /\ RunWasm.from_line5 Examples.add_2_3 Examples.fs (Some "mod.bin") (Some "2")
     = ([EvRead "mod.bin"], Throw (ReferenceError "bytes")).
Proof.
  split; [reflexivity|].
  destruct (C8_run_wasm_reference_error Examples.add_2_3)
    as (_ & _ & _ & _ & _ & _ & _ & _ & Hline6).
  apply (Hline6 (Some "2") "mod.bin" Examples.wasm_magic). reflexivity.
Defined.

(** C9. For every host, the variant is rejected when Node compiles it:
    line 7 opens with the two identifiers [coonst fn], so no line runs,
    nothing is read, instantiated, called or printed, and the exit
    status is 1.  Neither [wasmPath] nor [WebAssemblyinstantiate] is in
    scope, so that the body, were it to run, would throw at [wasmPath] on
    line 5 before any effect. *)
Theorem C9_part000_never_runs (h : host) :
  (exists line, Part000.source !! 6%nat = Some line
                /\ unexpected_identifier line = Some "fn")
  /\ in_scope "wasmPath" = false
  /\ in_scope "WebAssemblyinstantiate" = false
  /\ Part000.script h = ([], Throw (SyntaxError "Unexpected identifier 'fn'"))
  /\ reads (trace (Part000.script h)) = []
  /\ instantiations (trace (Part000.script h)) = []
  /\ calls (trace (Part000.script h)) = []
  /\ stdout (trace (Part000.script h)) = []
  /\ exit_status (Part000.script h) = 1%Z
  /\ (forall fs : value,
        Part000.body h fs = ([], Throw (ReferenceError "wasmPath"))).
Proof.
  split; [eexists; split; reflexivity|].
  repeat (split; [reflexivity|]). intros fs. reflexivity.
Qed.

(** ** A path that names no file *)

(** C5, the code at the failing input [node run_wasm.js missing.wasm]
    where no such file exists. run_wasm.js throws at [progress] and the
    variant is rejected at [coonst fn] (its body would throw at
    [wasmPath]): neither reaches the read of the file, so the error is
    not the one of the missing file.  Line 5 of run_wasm.js, given the
    path, does raise that error before anything else. *)
Theorem C5_missing_file_run :
  files Examples.missing_file "missing.wasm" = None
  /\ argv Examples.missing_file !! 2%nat = Some "missing.wasm"
  /\ RunWasm.script Examples.missing_file = ([], Throw (ReferenceError "progress"))
  /\ Part000.script Examples.missing_file
     = ([], Throw (SyntaxError "Unexpected identifier 'fn'"))
  /\ Part000.body Examples.missing_file Examples.fs
     = ([], Throw (ReferenceError "wasmPath"))
  /\ RunWasm.from_line5 Examples.missing_file Examples.fs
       (argv Examples.missing_file !! 2%nat) (argv Examples.missing_file !! 3%nat)
     = ([EvRead "missing.wasm"], Throw (SystemError "missing.wasm")).
Proof. repeat split. Qed.

(** ** One shot *)

(** The cases of the steps after instantiation: the selected export is
    a function that returns or throws, or there is but a throw. *)
Ltac run_wasm_cases inst argStr :=
  let i := fresh "i" in
  let f := fresh "f" in
  let Hsel := fresh "Hsel" in
  let e := fresh "e" in
  destruct (run_wasm_after_shape inst argStr) as [(i & f & Hsel)|[e ->]];
  [ rewrite (run_wasm_after_func inst i f argStr Hsel);
    destruct (f (RunWasm.passed argStr)) | ].

Ltac part000_cases inst argStrs :=
  let i := fresh "i" in
  let f := fresh "f" in
  let Hsel := fresh "Hsel" in
  let e := fresh "e" in
  destruct (part000_after_shape inst argStrs) as [(i & f & Hsel)|[e ->]];
  [ unfold Part000.after_instantiate;
    rewrite Hsel, part000_from_line8_func;
    destruct (f (Part000.coerced argStrs)) | ].

(** ** Further properties of the steps after instantiation *)

Section EntryPoint.
Variable inst : instance.

(** What run_wasm.js selects, the variant selects too. *)
Lemma select_part000_extends (e : export) :
  RunWasm.select_export inst = Some e -> Part000.select_export inst = Some e.
Proof.
  unfold RunWasm.select_export, Part000.select_export. intros ->. reflexivity.
Qed.

Lemma run_wasm_after_other (e : export) (argStr : option string) :
  (forall i f, e <> ExFunc i f) ->
  RunWasm.select_export inst = Some e ->
  RunWasm.after_instantiate inst argStr = throw (TypeError "fn is not a function").
Proof.
  intros Hnot Hsel. unfold RunWasm.after_instantiate.
  destruct (run_wasm_coerce argStr) as (arg & -> & _).
  rewrite bind_ret, Hsel. unfold RunWasm.invoke.
  destruct e as [i f| | |]; [destruct (Hnot i f eq_refl) | ..];
    destruct (negb (is_undefined arg)); reflexivity.
Qed.

Lemma part000_after_other (e : export) (argStrs : list string) :
  (forall i f, e <> ExFunc i f) ->
  Part000.select_export inst = Some e ->
  Part000.after_instantiate inst argStrs = throw (TypeError "fn is not a function").
Proof.
  intros Hnot Hsel. unfold Part000.after_instantiate, Part000.from_line8.
  rewrite Hsel, part000_coerce, bind_ret.
  destruct e as [i f| | |]; [destruct (Hnot i f eq_refl) | ..]; reflexivity.
Qed.

End EntryPoint.

(** What a run does after instantiation depends on the exports under
    the candidate names alone, and on a function only through its
    results. *)
Lemma same_select_run_wasm (i1 i2 : instance) :
  same_exports ["main"; "id"] i1 i2 ->
  same_export (RunWasm.select_export i1) (RunWasm.select_export i2).
Proof.
  intros H. pose proof (H "main" ltac:(simpl; tauto)) as Hmain.
  pose proof (H "id" ltac:(simpl; tauto)) as Hid.
  unfold RunWasm.select_export, or_else.
  destruct (exports i1 !! "main") as [e1|], (exports i2 !! "main") as [e2|].
  - exact Hmain.
  - destruct e1; contradiction.
  - contradiction.
  - exact Hid.
Qed.

Lemma same_select_part000 (i1 i2 : instance) :
  same_exports ["main"; "id"; "add"] i1 i2 ->
  same_export (Part000.select_export i1) (Part000.select_export i2).
Proof.
  intros H. pose proof (H "main" ltac:(simpl; tauto)) as Hmain.
  pose proof (H "id" ltac:(simpl; tauto)) as Hid.
  pose proof (H "add" ltac:(simpl; tauto)) as Hadd.
  unfold Part000.select_export, or_else.
  destruct (exports i1 !! "main") as [e1|], (exports i2 !! "main") as [e2|].
  - exact Hmain.
  - destruct e1; contradiction.
  - contradiction.
  - destruct (exports i1 !! "id") as [e1|], (exports i2 !! "id") as [e2|].
    + exact Hid.
    + destruct e1; contradiction.
    + contradiction.
    + exact Hadd.
Qed.

Lemma run_wasm_same_run (i1 i2 : instance) (argStr : option string) :
  same_export (RunWasm.select_export i1) (RunWasm.select_export i2) ->
  RunWasm.after_instantiate i1 argStr = RunWasm.after_instantiate i2 argStr.
Proof.
  destruct (RunWasm.select_export i1) as [e1|] eqn:E1,
           (RunWasm.select_export i2) as [e2|] eqn:E2;
    cbn [same_export]; try (destruct e1; contradiction); try contradiction.
  - destruct e1 as [i f| | |], e2 as [j g| | |]; try contradiction.
    + intros [<- Hfg].
      rewrite (run_wasm_after_func i1 i f argStr E1),
              (run_wasm_after_func i2 i g argStr E2), Hfg. reflexivity.
    + intros _. rewrite (run_wasm_after_other i1 ExMemory argStr),
                        (run_wasm_after_other i2 ExMemory argStr);
        solve [reflexivity | discriminate | assumption].
    + intros _. rewrite (run_wasm_after_other i1 ExTable argStr),
                        (run_wasm_after_other i2 ExTable argStr);
        solve [reflexivity | discriminate | assumption].
    + intros _. rewrite (run_wasm_after_other i1 ExGlobal argStr),
                        (run_wasm_after_other i2 ExGlobal argStr);
        solve [reflexivity | discriminate | assumption].
  - intros _. rewrite (run_wasm_after_none i1 argStr E1),
                      (run_wasm_after_none i2 argStr E2). reflexivity.
Qed.

Lemma part000_same_run (i1 i2 : instance) (argStrs : list string) :
  same_export (Part000.select_export i1) (Part000.select_export i2) ->
  Part000.after_instantiate i1 argStrs = Part000.after_instantiate i2 argStrs.
Proof.
  unfold Part000.after_instantiate.
  destruct (Part000.select_export i1) as [e1|],
           (Part000.select_export i2) as [e2|];
    cbn [same_export]; try (destruct e1; contradiction); try contradiction;
    [|reflexivity].
  destruct e1 as [i f| | |], e2 as [j g| | |]; try contradiction;
    [|reflexivity ..].
  intros [<- Hfg]. rewrite !part000_from_line8_func, Hfg. reflexivity.
Qed.

(** C7. Two runs instantiate the module each for itself.  When what they
    find under the candidate names is the same (the same kind of export,
    and for a function the same results on every argument list, the
    exports being deterministic), the steps after instantiation do the
    same on the same argument strings: the same call, the same printed
    line on success, the same error otherwise; what else the module
    exports does not matter.  The scripts as written end the same way on
    every host.  Nothing is tried twice: a run reads at most once and
    instantiates at most once, and the steps after instantiation call at
    most one export, at most once, and print at most one line. *)
Theorem C7_deterministic_one_shot (inst1 inst2 : instance) :
  (same_exports ["main"; "id"] inst1 inst2 ->
   forall argStr : option string,
     RunWasm.after_instantiate inst1 argStr
     = RunWasm.after_instantiate inst2 argStr)
  /\ (same_exports ["main"; "id"; "add"] inst1 inst2 ->
      forall argStrs : list string,
        Part000.after_instantiate inst1 argStrs
        = Part000.after_instantiate inst2 argStrs)
  /\ (forall h1 h2 : host,
        RunWasm.script h1 = RunWasm.script h2
        /\ Part000.script h1 = Part000.script h2)
  /\ (forall (h : host) (fs : value) (wasmPath argStr : option string),
        (length (reads (trace (RunWasm.from_line5 h fs wasmPath argStr))) <= 1)%nat
        /\ (length (instantiations
                      (trace (RunWasm.from_line5 h fs wasmPath argStr))) <= 1)%nat)
  /\ (forall (argStr : option string) (argStrs : list string),
        (length (calls (trace (RunWasm.after_instantiate inst1 argStr))) <= 1)%nat
        /\ (length (stdout (trace (RunWasm.after_instantiate inst1 argStr))) <= 1)%nat
        /\ (length (calls (trace (Part000.after_instantiate inst1 argStrs))) <= 1)%nat
        /\ (length (stdout (trace (Part000.after_instantiate inst1 argStrs))) <= 1)%nat).
Proof.
  split; [|split; [|split; [|split]]].
  - intros Hsame argStr. apply run_wasm_same_run, same_select_run_wasm, Hsame.
  - intros Hsame argStrs. apply part000_same_run, same_select_part000, Hsame.
  - intros h1 h2. split; reflexivity.
  - intros h fs wasmPath argStr.
    destruct (run_wasm_from_line5_trace h fs wasmPath argStr) as [-> _].
    destruct (readFileSync_trace h (member fs "readFileSync") (element wasmPath))
      as [->|(p & _ & ->)]; simpl; lia.
  - intros argStr argStrs. split; [|split; [|split]].
    + run_wasm_cases inst1 argStr; simpl; lia.
    + run_wasm_cases inst1 argStr; simpl; lia.
    + part000_cases inst1 argStrs; simpl; lia.
    + part000_cases inst1 argStrs; simpl; lia.
Qed.

Lemma C7_deterministic_one_shot_witness :
  exports Examples.id_only !! "helper" <> exports Examples.id_reloaded !! "helper"
  /\ RunWasm.after_instantiate Examples.id_only (Some "7")
     = RunWasm.after_instantiate Examples.id_reloaded (Some "7")
  /\ Part000.after_instantiate Examples.id_only ["7"; "8"]
     = Part000.after_instantiate Examples.id_reloaded ["7"; "8"]
  /\ stdout (trace (Part000.after_instantiate Examples.id_reloaded ["7"; "8"]))
     = ["Result: 7"].
Proof.
  split; [discriminate|].
  assert (Hid : forall args, Examples.id_fn args = Ok (hd VUndefined args)).
  { intros [|v r]; reflexivity. }
  assert (Hsame : same_exports ["main"; "id"; "add"]
                    Examples.id_only Examples.id_reloaded).
  { intros name [<-|[<-|[<-|[]]]]; [exact I | split; [reflexivity | exact Hid] | exact I]. }
  assert (Hsame2 : same_exports ["main"; "id"]
                     Examples.id_only Examples.id_reloaded).
  { intros name Hin. apply Hsame. simpl in *. tauto. }
  destruct (C7_deterministic_one_shot Examples.id_only Examples.id_reloaded)
    as (Hr & Hp & _).
  split; [exact (Hr Hsame2 (Some "7"))|].
  split; [exact (Hp Hsame ["7"; "8"])|].
  rewrite <- (Hp Hsame ["7"; "8"]). reflexivity.
Defined.

(** X1. The [||] chain stops at the first candidate that is exported,
    callable or not: when [main] is a memory, a table or a global, both
    variants select it, do not fall back on [id] or [add], and the call
    on line 12 (line 10 in the variant) throws a TypeError with no export
    called and nothing printed. *)
Theorem X1_entry_not_a_function (inst : instance) (e : export) :
  (forall i f, e <> ExFunc i f) ->
  exports inst !! "main" = Some e ->
  RunWasm.select_export inst = Some e
  /\ Part000.select_export inst = Some e
  /\ (forall argStr : option string,
        RunWasm.after_instantiate inst argStr
        = ([], Throw (TypeError "fn is not a function")))
  /\ (forall argStrs : list string,
        Part000.after_instantiate inst argStrs
        = ([], Throw (TypeError "fn is not a function"))).
Proof.
  intros Hnot Hmain.
  assert (Hr : RunWasm.select_export inst = Some e).
  { unfold RunWasm.select_export. rewrite Hmain. reflexivity. }
  pose proof (select_part000_extends inst e Hr) as Hp.
  split; [exact Hr|]. split; [exact Hp|]. split.
  - intros argStr. apply (run_wasm_after_other inst e argStr Hnot Hr).
  - intros argStrs. apply (part000_after_other inst e argStrs Hnot Hp).
Qed.

Lemma X1_entry_not_a_function_witness :
  exports Examples.memory_main !! "id" = Some (ExFunc 1 Examples.id_fn)
  /\ RunWasm.after_instantiate Examples.memory_main (Some "7")
     = ([], Throw (TypeError "fn is not a function"))
  /\ Part000.after_instantiate Examples.memory_main ["7"]
     = ([], Throw (TypeError "fn is not a function")).
Proof.
  split; [reflexivity|].
  assert (Hnot : forall i f, ExMemory <> ExFunc i f) by discriminate.
  destruct (X1_entry_not_a_function Examples.memory_main ExMemory Hnot eq_refl)
    as (_ & _ & Hr & Hp).
  split; [exact (Hr (Some "7")) | exact (Hp ["7"])].
Defined.

(** X2. The steps after instantiation never read a file and never
    instantiate again, and they end in one of two ways: exit status 0
    with exactly one export call and exactly one line on stdout, or exit
    status 1 with nothing on stdout.  No failure leaves a partial result
    line behind. *)
Theorem X2_one_line_or_none (inst : instance) (argStr : option string)
    (argStrs : list string) :
  (reads (trace (RunWasm.after_instantiate inst argStr)) = []
   /\ instantiations (trace (RunWasm.after_instantiate inst argStr)) = []
   /\ ((exit_status (RunWasm.after_instantiate inst argStr) = 0%Z
        /\ length (calls (trace (RunWasm.after_instantiate inst argStr))) = 1%nat
        /\ length (stdout (trace (RunWasm.after_instantiate inst argStr))) = 1%nat)
       \/ (exit_status (RunWasm.after_instantiate inst argStr) = 1%Z
           /\ stdout (trace (RunWasm.after_instantiate inst argStr)) = [])))
  /\ (reads (trace (Part000.after_instantiate inst argStrs)) = []
      /\ instantiations (trace (Part000.after_instantiate inst argStrs)) = []
      /\ ((exit_status (Part000.after_instantiate inst argStrs) = 0%Z
           /\ length (calls (trace (Part000.after_instantiate inst argStrs))) = 1%nat
           /\ length (stdout (trace (Part000.after_instantiate inst argStrs))) = 1%nat)
          \/ (exit_status (Part000.after_instantiate inst argStrs) = 1%Z
              /\ stdout (trace (Part000.after_instantiate inst argStrs)) = []))).
Proof.
  split.
  - run_wasm_cases inst argStr;
      (split; [reflexivity|]; split; [reflexivity|]);
      first [ left; repeat split; reflexivity | right; split; reflexivity ].
  - part000_cases inst argStrs;
      (split; [reflexivity|]; split; [reflexivity|]);
      first [ left; repeat split; reflexivity | right; split; reflexivity ].
Qed.

(** X3. Where run_wasm.js finds an entry point ([main] or [id] is
    exported), the variant does the same as run_wasm.js for no token and
    for one token that is not empty: same call, same line, same error.
    For the empty token they part: run_wasm.js takes it for no argument
    and calls the function with none, the variant passes NaN. *)
Theorem X3_variants_agree (inst : instance) :
  RunWasm.select_export inst <> None ->
  RunWasm.after_instantiate inst None = Part000.after_instantiate inst []
  /\ (forall (c : ascii) (r : string),
        RunWasm.after_instantiate inst (Some (String c r))
        = Part000.after_instantiate inst [String c r])
  /\ (forall (i : N) (f : list value -> result value),
        RunWasm.select_export inst = Some (ExFunc i f) ->
        calls (trace (RunWasm.after_instantiate inst (Some ""))) = [(i, [])]
        /\ calls (trace (Part000.after_instantiate inst [""]))
           = [(i, [VNumber NaN])]).
Proof.
  intros Hsome.
  destruct (RunWasm.select_export inst) as [e|] eqn:Hr; [clear Hsome|congruence].
  pose proof (select_part000_extends inst e Hr) as Hp.
  assert (Hsame : forall argStr argStrs,
            RunWasm.passed argStr = Part000.coerced argStrs ->
            RunWasm.after_instantiate inst argStr
            = Part000.after_instantiate inst argStrs).
  { intros argStr argStrs Hargs. destruct e as [i f| | |].
    - rewrite (run_wasm_after_func inst i f argStr Hr).
      unfold Part000.after_instantiate.
      rewrite Hp, part000_from_line8_func, Hargs. reflexivity.
    - rewrite (run_wasm_after_other inst ExMemory argStr) by (discriminate || exact Hr).
      rewrite (part000_after_other inst ExMemory argStrs) by (discriminate || exact Hp).
      reflexivity.
    - rewrite (run_wasm_after_other inst ExTable argStr) by (discriminate || exact Hr).
      rewrite (part000_after_other inst ExTable argStrs) by (discriminate || exact Hp).
      reflexivity.
    - rewrite (run_wasm_after_other inst ExGlobal argStr) by (discriminate || exact Hr).
      rewrite (part000_after_other inst ExGlobal argStrs) by (discriminate || exact Hp).
      reflexivity. }
  split; [apply Hsame; reflexivity|]. split.
  - intros c r. apply Hsame. reflexivity.
  - intros i f Hf. injection Hf as ->. split.
    + rewrite (run_wasm_after_func inst i f (Some "") Hr).
      destruct (f (RunWasm.passed (Some ""))); reflexivity.
    + unfold Part000.after_instantiate. rewrite Hp, part000_from_line8_func.
      destruct (f (Part000.coerced [""])); reflexivity.
Qed.

Lemma X3_variants_agree_witness :
  RunWasm.after_instantiate Examples.id_only (Some "41")
  = Part000.after_instantiate Examples.id_only ["41"]
  /\ calls (trace (RunWasm.after_instantiate Examples.id_only (Some "")))
     = [(0%N, [])]
  /\ calls (trace (Part000.after_instantiate Examples.id_only [""]))
     = [(0%N, [VNumber NaN])].
Proof.
  assert (Hsome : RunWasm.select_export Examples.id_only <> None) by discriminate.
  destruct (X3_variants_agree Examples.id_only Hsome) as (_ & Hone & Hempty).
  destruct (Hempty 0%N Examples.id_fn eq_refl) as [Hr Hp].
  split; [exact (Hone "4"%char "1")|]. split; [exact Hr | exact Hp].
Defined.

(** X4. With two or more tokens on the command line, run_wasm.js calls
    its entry point with fewer arguments than there are tokens (one at
    most), while the variant passes as many arguments as there are
    tokens. *)
Theorem X4_tokens_dropped (inst : instance) (i : N)
    (f : list value -> result value) (cmdline : list string) :
  RunWasm.select_export inst = Some (ExFunc i f) ->
  (5 <= length cmdline)%nat ->
  (exists args,
     calls (trace (RunWasm.after_instantiate inst (cmdline !! 3%nat)))
       = [(i, args)]
     /\ (length args < length (drop 3 cmdline))%nat)
  /\ (exists args,
        calls (trace (Part000.after_instantiate inst (drop 3 cmdline)))
          = [(i, args)]
        /\ length args = (length cmdline - 3)%nat).
Proof.
  intros Hr Hlen. pose proof (select_part000_extends inst _ Hr) as Hp. split.
  - exists (RunWasm.passed (cmdline !! 3%nat)). split.
    + rewrite (run_wasm_after_func inst i f _ Hr).
      destruct (f (RunWasm.passed (cmdline !! 3%nat))); reflexivity.
    + rewrite length_drop.
      destruct (cmdline !! 3%nat) as [[|c r]|]; simpl; lia.
  - exists (Part000.coerced (drop 3 cmdline)). split.
    + unfold Part000.after_instantiate. rewrite Hp, part000_from_line8_func.
      destruct (f (Part000.coerced (drop 3 cmdline))); reflexivity.
    + rewrite coerce_length, length_drop. reflexivity.
Qed.

Lemma X4_tokens_dropped_witness :
  (exists args,
     calls (trace (RunWasm.after_instantiate Examples.main_and_id
                     (Examples.cmdline_2_3 !! 3%nat))) = [(0%N, args)]
     /\ (length args < 2)%nat)
  /\ (exists args,
        calls (trace (Part000.after_instantiate Examples.main_and_id
                        (drop 3 Examples.cmdline_2_3))) = [(0%N, args)]
        /\ length args = 2%nat).
Proof.
  apply (X4_tokens_dropped Examples.main_and_id 0%N Examples.main_fn
           Examples.cmdline_2_3 eq_refl).
  simpl. lia.
Defined.

(** ** Printing and coercing together *)

Lemma inspect_safe (z : Z) :
  (Z.abs z <= 2 ^ 53)%Z -> inspect (VNumber (Num z)) = string_of_Z z.
Proof.
  intros Hz. cbn [inspect inspect_number].
  apply Z.leb_le in Hz. rewrite Hz. reflexivity.
Qed.

Lemma passed_numeral (z : Z) :
  (Z.abs z <= 2 ^ 53)%Z ->
  RunWasm.passed (Some (string_of_Z z)) = [VNumber (Num z)].
Proof.
  intros Hz. pose proof (parseInt10_string_of_Z z) as Hback.
  rewrite (to_double_safe z Hz) in Hback. revert Hback.
  destruct (string_of_Z z) as [|c r]; [discriminate|].
  intros Hback. cbn [RunWasm.passed]. rewrite Hback. reflexivity.
Qed.

(** X9. With an entry point that returns its first argument, both
    variants echo an integer up to 2^53 in magnitude: for its numeral as
    first token the run calls the export with that integer, prints the
    one line [Result: ] followed by the same numeral, and ends with
    status 0. *)
Theorem X9_identity_echo (inst : instance) (i : N)
    (f : list value -> result value) :
  RunWasm.select_export inst = Some (ExFunc i f) ->
  (forall v rest, f (v :: rest) = Ok v) ->
  forall (z : Z) (more : list string),
    (Z.abs z <= 2 ^ 53)%Z ->
    RunWasm.after_instantiate inst (Some (string_of_Z z))
    = ([EvCall i [VNumber (Num z)]; EvStdout ("Result: " +:+ string_of_Z z)],
       Ok tt)
    /\ stdout (trace (Part000.after_instantiate inst (string_of_Z z :: more)))
       = ["Result: " +:+ string_of_Z z]
    /\ exit_status (Part000.after_instantiate inst (string_of_Z z :: more)) = 0%Z.
Proof.
  intros Hr Hid z more Hz. pose proof (select_part000_extends inst _ Hr) as Hp.
  pose proof (parseInt10_string_of_Z z) as Hback.
  rewrite (to_double_safe z Hz) in Hback.
  pose proof (passed_numeral z Hz) as Hpassed.
  pose proof (inspect_safe z Hz) as Hshow. split.
  - rewrite (run_wasm_after_func inst i f _ Hr), Hpassed, Hid, Hshow. reflexivity.
  - unfold Part000.after_instantiate, exit_status.
    rewrite Hp, part000_from_line8_func.
    unfold Part000.coerced. cbn [map]. rewrite Hback, Hid, Hshow.
    split; reflexivity.
Qed.

Lemma X9_identity_echo_witness :
  RunWasm.after_instantiate Examples.id_only (Some (string_of_Z (-7)))
  = ([EvCall 0 [VNumber (Num (-7))]; EvStdout "Result: -7"], Ok tt)
  /\ stdout (trace (Part000.after_instantiate Examples.id_only
                      [string_of_Z 7; "8"])) = ["Result: 7"].
Proof.
  assert (Hid : forall v rest, Examples.id_fn (v :: rest) = Ok v) by reflexivity.
  assert (H7 : (Z.abs 7 <= 2 ^ 53)%Z) by (vm_compute; discriminate).
  assert (Hm7 : (Z.abs (-7) <= 2 ^ 53)%Z) by (vm_compute; discriminate).
  split.
  - exact (proj1 (X9_identity_echo Examples.id_only 0%N Examples.id_fn
                    eq_refl Hid (-7)%Z [] Hm7)).
  - exact (proj1 (proj2 (X9_identity_echo Examples.id_only 0%N Examples.id_fn
                           eq_refl Hid 7%Z ["8"] H7))).
Defined.
